(** * The chat composer [TextInput] (src/components/inputs/textInput/components/TextInput.tsx)

    A shallow embedding of the component's signals, refs and event handlers,
    followed by the properties of the handlers.

    Conventions of the embedding:
    - a JavaScript [string] is a Rocq [string]; [length] counts its units
      (the handlers never look inside a unit, so that a unit here has eight
      bits and a UTF-16 unit sixteen makes no difference to them);
    - a JavaScript [number] that the component reads (a character limit, a
      cursor position, a key code, a viewport width) is an integer, in [Z];
    - an optional prop or a nullable DOM attribute is an [option];
    - the three signals and the refs of one mounted component are the fields
      of the record [Composer]; a handler is a function from the composer to
      its result, the composer afterwards and the calls it made on the host's
      callbacks and on the DOM, in order. *)

From Stdlib Require Import ZArith String Ascii List Bool Lia DecimalString.
Import ListNotations.

Local Open Scope string_scope.
Local Open Scope Z_scope.

(** ** JavaScript primitives the component relies on *)

Module JS.

(** [a ?? d]: the right operand only when the left one is null or undefined. *)
Definition nullish {A : Type} (a : option A) (d : A) : A :=
  match a with
  | Some v => v
  | None => d
  end.

(** Truthiness of a [number | undefined]: [undefined] and [0] are falsy. *)
Definition truthy_number (n : option Z) : bool :=
  match n with
  | Some z => negb (z =? 0)
  | None => false
  end.

(** Truthiness of a [boolean | undefined]. *)
Definition truthy_boolean (b : option bool) : bool :=
  match b with
  | Some v => v
  | None => false
  end.

(** Truthiness of a [string | undefined]: [undefined] and [''] are falsy. *)
Definition truthy_string (s : option string) : bool :=
  match s with
  | Some v => negb (v =? "")%string
  | None => false
  end.

(** Truthiness of an object reference: any object is truthy. *)
Definition truthy_ref {A : Type} (r : option A) : bool :=
  match r with
  | Some _ => true
  | None => false
  end.

(** [a > b] where [b] may be [undefined] (which converts to NaN, and every
    comparison with NaN is false). *)
Definition gt (a : Z) (b : option Z) : bool :=
  match b with
  | Some z => a >? z
  | None => false
  end.

(** Number-to-string conversion of an integer, as in a template literal. *)
Definition number_to_string (z : Z) : string :=
  NilZero.string_of_int (Z.to_int z).

(** [`${n}`] for a [number | undefined]. *)
Definition template (n : option Z) : string :=
  match n with
  | Some z => number_to_string z
  | None => "undefined"
  end.

(** A relative index of [String.prototype.slice], clamped into [0, len]:
    a negative index counts from the end. *)
Definition clamp_index (len i : Z) : Z :=
  if i <? 0 then Z.max (len + i) 0 else Z.min i len.

(** [s.slice(start, end)]; [end_ = None] is the one-argument form. *)
Definition slice (s : string) (start : Z) (end_ : option Z) : string :=
  let len := Z.of_nat (String.length s) in
  let from := clamp_index len start in
  let to := match end_ with
            | Some e => clamp_index len e
            | None => len
            end in
  substring (Z.to_nat from) (Z.to_nat (Z.max (to - from) 0)) s.

End JS.

(** ** The component *)

Module TextInput.

(** The props the handlers read.  The remaining props (placeholder, colours,
    font size, uploadsConfig) only reach the rendered markup; the three
    callbacks [onSubmit], [onMicrophoneClicked] and [handleFileChange] are
    the host's, and a call of one of them is recorded as a [Call]. *)
Record Props : Type := {
  defaultValue : option string;
  disabled : option bool;
  maxChars : option Z;
  maxCharsWarningMessage : option string;
  autoFocus : option bool;
  sendMessageSound : option bool;
  sendSoundLocation : option string
}.

Definition defaultSendSound : string :=
  "https://cdn.jsdelivr.net/gh/FlowiseAI/FlowiseChatEmbed@latest/src/assets/send_message.mp3".

(** The text field behind [inputRef], as far as the component looks at it:
    the cursor ([selectionStart], [null] for a field without selection),
    and the answer of the next [reportValidity()]. *)
Record HTMLInputElement : Type := {
  selectionStart : option Z;
  selectionEnd : option Z;
  validity : bool
}.

(** The hidden file picker: its [value] names the chosen file(s). *)
Record HTMLFileInput : Type := {
  value : string
}.

(** [FileEvent<HTMLInputElement>]: the handler only looks at [target]. *)
Record FileEvent : Type := {
  target : option HTMLFileInput
}.

Record KeyboardEvent : Type := {
  key : string;
  isComposing : bool;
  keyCode : Z
}.

(** [new Audio(src)]. *)
Record HTMLAudioElement : Type := {
  src : string
}.

(** What [onMount] reads from the page: the [isMobile] signal and
    [window.innerWidth]. *)
Record Window : Type := {
  isMobile : bool;
  innerWidth : Z
}.

(** The calls a handler makes outside the component. *)
Inductive Call : Type :=
| onSubmit (text : string)                       (* props.onSubmit(text) *)
| play (audio : HTMLAudioElement)                (* audioRef.play() *)
| focus                                          (* inputRef.focus() *)
| setSelectionRange (from to : Z)                (* inputRef.setSelectionRange(from, to) *)
| hostHandleFileChange (event : FileEvent).      (* props.handleFileChange(event) *)

(** The signals and refs of one component instance. *)
Record Composer : Type := {
  inputValue : string;
  isSendButtonDisabled : bool;
  warningMessage : string;
  inputRef : option HTMLInputElement;
  audioRef : option HTMLAudioElement
}.

(** *** Handlers: state passing with a log of outside calls *)

Definition Handler (A : Type) : Type := Composer -> A * Composer * list Call.

Definition ret {A : Type} (a : A) : Handler A :=
  fun c => (a, c, []).

Definition bind {A B : Type} (m : Handler A) (k : A -> Handler B) : Handler B :=
  fun c =>
    let r1 := m c in
    let r2 := k (fst (fst r1)) (snd (fst r1)) in
    (fst (fst r2), snd (fst r2), (snd r1 ++ snd r2)%list).

Definition read {A : Type} (signal : Composer -> A) : Handler A :=
  fun c => (signal c, c, []).

Definition call (e : Call) : Handler unit :=
  fun c => (tt, c, [e]).

Definition result {A : Type} (r : A * Composer * list Call) : A := fst (fst r).
Definition after {A : Type} (r : A * Composer * list Call) : Composer := snd (fst r).
Definition calls {A : Type} (r : A * Composer * list Call) : list Call := snd r.

Declare Scope handler_scope.
Delimit Scope handler_scope with handler.
Notation "x <- m ;; k" := (bind m (fun x => k))
  (at level 61, m at next level, right associativity) : handler_scope.
Notation "m ;; k" := (bind m (fun _ => k))
  (at level 61, right associativity) : handler_scope.
Local Open Scope handler_scope.

(** The signal setters. *)
Definition setInputValue (v : string) : Handler unit :=
  fun c => (tt, {| inputValue := v;
                   isSendButtonDisabled := isSendButtonDisabled c;
                   warningMessage := warningMessage c;
                   inputRef := inputRef c;
                   audioRef := audioRef c |}, []).

Definition setIsSendButtonDisabled (b : bool) : Handler unit :=
  fun c => (tt, {| inputValue := inputValue c;
                   isSendButtonDisabled := b;
                   warningMessage := warningMessage c;
                   inputRef := inputRef c;
                   audioRef := audioRef c |}, []).

Definition setWarningMessage (w : string) : Handler unit :=
  fun c => (tt, {| inputValue := inputValue c;
                   isSendButtonDisabled := isSendButtonDisabled c;
                   warningMessage := w;
                   inputRef := inputRef c;
                   audioRef := audioRef c |}, []).

(** Assignment to the local [audioRef]. *)
Definition setAudioRef (a : HTMLAudioElement) : Handler unit :=
  fun c => (tt, {| inputValue := inputValue c;
                   isSendButtonDisabled := isSendButtonDisabled c;
                   warningMessage := warningMessage c;
                   inputRef := inputRef c;
                   audioRef := Some a |}, []).

(** [inputRef?.setSelectionRange(from, to)]: moves the cursor of the field
    (the handler only passes positions below the field's own cursor, so the
    browser's clamping to the field's length never applies) and is logged. *)
Definition inputRef_setSelectionRange (from to : Z) : Handler unit :=
  fun c =>
    match inputRef c with
    | Some el =>
        (tt, {| inputValue := inputValue c;
                isSendButtonDisabled := isSendButtonDisabled c;
                warningMessage := warningMessage c;
                inputRef := Some {| selectionStart := Some from;
                                    selectionEnd := Some to;
                                    validity := validity el |};
                audioRef := audioRef c |}, [setSelectionRange from to])
    | None => (tt, c, [])
    end.

(** [inputRef?.reportValidity()]: [undefined] (falsy) without a field. *)
Definition inputRef_reportValidity : Handler bool :=
  fun c =>
    match inputRef c with
    | Some el => (validity el, c, [])
    | None => (false, c, [])
    end.

Section Component.

Variable props : Props.

(** Lines 33-40: the signals start from [props.defaultValue ?? ''],
    [false] and ['']; rendering binds [inputRef] to the text field [el]
    (line 147); [audioRef] is unassigned until [onMount]. *)
Definition TextInput (el : HTMLInputElement) : Composer :=
  {| inputValue := JS.nullish (defaultValue props) "";
     isSendButtonDisabled := false;
     warningMessage := "";
     inputRef := Some el;
     audioRef := None |}.

(** Lines 42-53. *)
Definition handleInput (newValue : string) : Handler unit :=
  let wordCount := Z.of_nat (String.length newValue) in
  if JS.truthy_number (maxChars props) && JS.gt wordCount (maxChars props) then
    setWarningMessage
      (JS.nullish (maxCharsWarningMessage props)
         ("You exceeded the characters limit. Please input less than "
            ++ JS.template (maxChars props) ++ " characters.")%string) ;;
    setIsSendButtonDisabled true
  else
    setInputValue newValue ;;
    setWarningMessage "" ;;
    setIsSendButtonDisabled false.

(** Line 55; [&&] evaluates its right operand only when the left is truthy. *)
Definition checkIfInputIsValid : Handler bool :=
  v <- read inputValue ;;
  if negb (v =? "")%string then
    w <- read warningMessage ;;
    if (w =? "")%string then inputRef_reportValidity else ret false
  else ret false.

(** Lines 57-65. *)
Definition submit : Handler unit :=
  ok <- checkIfInputIsValid ;;
  if ok then
    v <- read inputValue ;;
    call (onSubmit v) ;;
    audio <- read audioRef ;;
    (if JS.truthy_boolean (sendMessageSound props)
     then match audio with
          | Some a => call (play a)
          | None => ret tt
          end
     else ret tt) ;;
    setInputValue ""
  else ret tt.

(** Lines 67-72. *)
Definition submitWhenEnter (e : KeyboardEvent) : Handler unit :=
  let isIMEComposition := isComposing e || (keyCode e =? 229) in
  w <- read warningMessage ;;
  if (key e =? "Enter")%string && negb isIMEComposition && (w =? "")%string
  then submit
  else ret tt.

(** Lines 80-89. *)
Definition deleteCharacter : Handler unit :=
  currentInputValue <- read inputValue ;;
  ref <- read inputRef ;;
  let cursorPosition :=
    JS.nullish (match ref with
                | Some el => selectionStart el
                | None => None
                end) 0 in
  if cursorPosition >? 0 then
    let newValue :=
      (JS.slice currentInputValue 0 (Some (cursorPosition - 1))
         ++ JS.slice currentInputValue cursorPosition None)%string in
    setInputValue newValue ;;
    inputRef_setSelectionRange (cursorPosition - 1) (cursorPosition - 1)
  else ret tt.

(** Lines 74-78. *)
Definition handleKeyPress (e : KeyboardEvent) : Handler unit :=
  if (key e =? "Backspace")%string then deleteCharacter else ret tt.

(** Lines 91-105. *)
Definition onMount (w : Window) : Handler unit :=
  let shouldAutoFocus :=
    match autoFocus props with
    | Some b => b
    | None => negb (isMobile w) && (innerWidth w >? 640)
    end in
  ref <- read inputRef ;;
  (if negb (JS.truthy_boolean (disabled props)) && shouldAutoFocus && JS.truthy_ref ref
   then call focus
   else ret tt) ;;
  if JS.truthy_boolean (sendMessageSound props) then
    if JS.truthy_string (sendSoundLocation props)
    then setAudioRef {| src := JS.nullish (sendSoundLocation props) "" |}
    else setAudioRef {| src := defaultSendSound |}
  else ret tt.

(** Mounting: the component function runs, then its [onMount] callback. *)
Definition mount (el : HTMLInputElement) (w : Window) : unit * Composer * list Call :=
  onMount w (TextInput el).

(** Lines 111-114.  The handler writes to the event's target, which is
    the hidden file picker the event came from; the event is returned as
    it is after the handler. *)
Definition handleFileChange (event : FileEvent) : Handler FileEvent :=
  call (hostHandleFileChange event) ;;
  match target event with
  | Some _ => ret {| target := Some {| value := "" |} |}
  | None => ret event
  end.

End Component.

(** The browser's side of the file picker: choosing [chosen] in the picker
    [inp] dispatches a change event, with the picker as target, only when
    that changes the picker's value. *)
Definition chooseFile (chosen : string) (inp : HTMLFileInput) : option FileEvent :=
  if (chosen =? value inp)%string
  then None
  else Some {| target := Some {| value := chosen |} |}.

(** What [inputRef?.reportValidity()] answers in the composer [c]. *)
Definition field_reports_valid (c : Composer) : bool :=
  match inputRef c with
  | Some el => validity el
  | None => false
  end.

(** The cursor of the text field, when there is one. *)
Definition cursor (c : Composer) : option Z :=
  match inputRef c with
  | Some el => selectionStart el
  | None => None
  end.

(** The texts passed to [props.onSubmit], in order. *)
Fixpoint onSubmit_calls (l : list Call) : list string :=
  match l with
  | [] => []
  | onSubmit t :: l' => t :: onSubmit_calls l'
  | _ :: l' => onSubmit_calls l'
  end.

(** *** The rendered markup (lines 116-178) *)

(** [Partial<UploadsConfig>], as far as the markup looks at it. *)
Record UploadsConfig : Type := {
  isImageUploadAllowed : option bool;
  isSpeechToTextEnabled : option bool
}.

(** The props that only reach the markup. *)
Record MarkupProps : Type := {
  placeholder : option string;
  backgroundColor : option string;
  textColor : option string;
  sendButtonColor : option string;
  fontSize : option Z;
  uploadsConfig : option UploadsConfig
}.

Definition defaultBackgroundColor : string := "#ffffff".
Definition defaultTextColor : string := "#303235".

(** What is on the page: the container's two colours, the warning region
    when it is shown, each button with its [isDisabled] when it is rendered,
    and the attributes handed to the text field. *)
Record View : Type := {
  style_backgroundColor : string;
  style_color : string;
  warningRegion : option string;
  imageUploadButton : option bool;
  field_value : string;
  field_disabled : bool;
  field_placeholder : string;
  recordAudioButton : option bool;
  sendButton : bool
}.

(** [props.uploadsConfig?.flag], as a condition. *)
Definition uploadsFlag (flag : UploadsConfig -> option bool) (m : MarkupProps) : bool :=
  match uploadsConfig m with
  | Some u => JS.truthy_boolean (flag u)
  | None => false
  end.

Definition render (props : Props) (m : MarkupProps) (c : Composer) : View :=
  let isDisabled := JS.truthy_boolean (disabled props) || isSendButtonDisabled c in
  {| style_backgroundColor := JS.nullish (backgroundColor m) defaultBackgroundColor;
     style_color := JS.nullish (textColor m) defaultTextColor;
     warningRegion :=
       if negb (warningMessage c =? "")%string then Some (warningMessage c) else None;
     imageUploadButton :=
       if uploadsFlag isImageUploadAllowed m then Some isDisabled else None;
     field_value := inputValue c;
     field_disabled := JS.truthy_boolean (disabled props);
     field_placeholder := JS.nullish (placeholder m) "Type your question";
     recordAudioButton :=
       if uploadsFlag isSpeechToTextEnabled m then Some isDisabled else None;
     sendButton := isDisabled |}.

(** A button that is on the page is disabled; one that is not rendered
    cannot be used either. *)
Definition unusable (button : option bool) : bool :=
  match button with
  | Some isDisabled => isDisabled
  | None => true
  end.

(** *** Events *)

(** The events the markup routes to the handlers: [onInput], [onKeyDown] and
    [onKeyPress] of the text field, the click on the send button, [onChange]
    of the file picker.  [FieldUpdate] is the browser's own part: between two
    events the user may have moved the cursor, and the field's validity may
    have changed.  A handler is run whether or not its control is disabled,
    so what holds for every list of events holds for those a page can
    produce. *)
Inductive Event : Type :=
| Input (newValue : string)
| KeyDown (e : KeyboardEvent)
| KeyPress (e : KeyboardEvent)
| SendClick
| FileChange (event : FileEvent)
| FieldUpdate (el : HTMLInputElement).

(** The browser rewrites the field that [inputRef] points to. *)
Definition fieldUpdate (el : HTMLInputElement) : Handler unit :=
  fun c =>
    match inputRef c with
    | Some _ =>
        (tt, {| inputValue := inputValue c;
                isSendButtonDisabled := isSendButtonDisabled c;
                warningMessage := warningMessage c;
                inputRef := Some el;
                audioRef := audioRef c |}, [])
    | None => (tt, c, [])
    end.

Definition dispatch (props : Props) (ev : Event) : Handler unit :=
  match ev with
  | Input newValue => handleInput props newValue
  | KeyDown e => submitWhenEnter props e
  | KeyPress e => handleKeyPress e
  | SendClick => submit props
  | FileChange event => _ <- handleFileChange event ;; ret tt
  | FieldUpdate el => fieldUpdate el
  end.

Fixpoint run (props : Props) (evs : list Event) : Handler unit :=
  match evs with
  | [] => ret tt
  | ev :: rest => dispatch props ev ;; run props rest
  end.

(** The test of line 45 and the message of line 46. *)
Definition exceedsLimit (props : Props) (newValue : string) : bool :=
  JS.truthy_number (maxChars props)
    && JS.gt (Z.of_nat (String.length newValue)) (maxChars props).

Definition limitWarning (props : Props) : string :=
  JS.nullish (maxCharsWarningMessage props)
    ("You exceeded the characters limit. Please input less than "
       ++ JS.template (maxChars props) ++ " characters.")%string.

(** The source of the sound [onMount] loads (lines 99-103). *)
Definition sendSound (props : Props) : HTMLAudioElement :=
  if JS.truthy_string (sendSoundLocation props)
  then {| src := JS.nullish (sendSoundLocation props) "" |}
  else {| src := defaultSendSound |}.

(** The sounds played, in order. *)
Fixpoint plays (l : list Call) : list HTMLAudioElement :=
  match l with
  | [] => []
  | play a :: l' => a :: plays l'
  | _ :: l' => plays l'
  end.

(** The events handed to [props.handleFileChange], in order. *)
Fixpoint hostHandleFileChange_calls (l : list Call) : list FileEvent :=
  match l with
  | [] => []
  | hostHandleFileChange event :: l' => event :: hostHandleFileChange_calls l'
  | _ :: l' => hostHandleFileChange_calls l'
  end.

(** The user chooses [chosen] in the picker [inp]: when the browser
    dispatches a change event, the component's handler runs on it; the
    picker is returned as the handler leaves it. *)
Definition pickFile (chosen : string) (inp : HTMLFileInput) : Handler HTMLFileInput :=
  match chooseFile chosen inp with
  | Some event =>
      event' <- handleFileChange event ;;
      ret (JS.nullish (target event') {| value := chosen |})
  | None => ret inp
  end.

Fixpoint pickFiles (chosen : list string) (inp : HTMLFileInput) : Handler HTMLFileInput :=
  match chosen with
  | [] => ret inp
  | f :: rest => inp' <- pickFile f inp ;; pickFiles rest inp'
  end.

End TextInput.

(** ** Properties *)

Import TextInput.

(** *** Strings and [slice] *)

Section SliceFacts.

Local Open Scope nat_scope.

Lemma length_app_string (s t : string) :
  String.length (s ++ t) = String.length s + String.length t.
Proof.
  induction s as [|a s IH]; simpl; [reflexivity | now rewrite IH].
Qed.

Lemma substring_whole (s : string) : substring 0 (String.length s) s = s.
Proof.
  induction s as [|a s IH]; simpl; [reflexivity | now rewrite IH].
Qed.

Lemma substring_nothing (n : nat) (s : string) : substring n 0 s = "".
Proof.
  revert n; induction s as [|a s IH]; intros [|n]; simpl; auto.
Qed.

Lemma substring_head (pre s : string) :
  substring 0 (String.length pre) (pre ++ s) = pre.
Proof.
  induction pre as [|a pre IH]; simpl.
  - apply substring_nothing.
  - now rewrite IH.
Qed.

Lemma substring_tail (pre s : string) :
  substring (String.length pre) (String.length s) (pre ++ s) = s.
Proof.
  induction pre as [|a pre IH]; simpl; [apply substring_whole | exact IH].
Qed.

(** A string with more than [n] units splits around its unit of index [n]. *)
Lemma split_at_index (n : nat) (s : string) :
  n < String.length s ->
  exists pre ch post,
    s = (pre ++ String ch post)%string /\ String.length pre = n.
Proof.
  revert n; induction s as [|a s IH]; simpl; intros n Hn; [lia|].
  destruct n as [|n].
  - exists ""%string, a, s. split; reflexivity.
  - destruct (IH n) as (pre & ch & post & -> & Hlen); [lia|].
    exists (String a pre), ch, post. simpl. split; [reflexivity | now rewrite Hlen].
Qed.

(** The unit removed is the one [String.get] finds at that index. *)
Lemma get_middle (pre post : string) (ch : ascii) :
  String.get (String.length pre) (pre ++ String ch post) = Some ch.
Proof.
  induction pre as [|a pre IH]; simpl; [reflexivity | exact IH].
Qed.

End SliceFacts.

Lemma slice_before (pre rest : string) :
  JS.slice (pre ++ rest) 0 (Some (Z.of_nat (String.length pre))) = pre.
Proof.
  unfold JS.slice, JS.clamp_index. rewrite length_app_string.
  replace (0 <? 0) with false by reflexivity.
  destruct (Z.ltb_spec (Z.of_nat (String.length pre)) 0) as [H|H]; [lia|].
  rewrite Z.min_l by lia.
  rewrite (Z.min_l (Z.of_nat (String.length pre))) by lia.
  rewrite Z.sub_0_r, Z.max_l by lia.
  rewrite Nat2Z.id. simpl Z.to_nat. apply substring_head.
Qed.

Lemma slice_after (pre post : string) :
  JS.slice (pre ++ post) (Z.of_nat (String.length pre)) None = post.
Proof.
  unfold JS.slice, JS.clamp_index. rewrite length_app_string.
  destruct (Z.ltb_spec (Z.of_nat (String.length pre)) 0) as [H|H]; [lia|].
  rewrite Z.min_l by lia.
  rewrite Z.max_l by lia.
  rewrite Nat2Z.id.
  replace (Z.to_nat _) with (String.length post) by lia.
  apply substring_tail.
Qed.

(** Beyond the end of the string both slices clamp: everything, and nothing. *)
Lemma slice_beyond (s : string) (p : Z) :
  Z.of_nat (String.length s) < p ->
  JS.slice s 0 (Some (p - 1)) = s /\ JS.slice s p None = ""%string.
Proof.
  intros Hp. unfold JS.slice, JS.clamp_index.
  replace (0 <? 0) with false by reflexivity.
  destruct (Z.ltb_spec (p - 1) 0) as [H|H]; [lia|].
  destruct (Z.ltb_spec p 0) as [H'|H']; [lia|].
  rewrite Z.min_l by lia.
  rewrite !Z.min_r by lia.
  split.
  - rewrite Z.sub_0_r, Z.max_l by lia. rewrite Nat2Z.id. apply substring_whole.
  - rewrite Z.sub_diag. apply substring_nothing.
Qed.

(** *** Input handling *)

(** The [else] branch of [handleInput], whatever the props. *)
Lemma handleInput_commit (props : Props) (newValue : string) (c : Composer) :
  JS.truthy_number (maxChars props)
    && JS.gt (Z.of_nat (String.length newValue)) (maxChars props) = false ->
  handleInput props newValue c =
    (tt, {| inputValue := newValue;
            isSendButtonDisabled := false;
            warningMessage := "";
            inputRef := inputRef c;
            audioRef := audioRef c |}, []).
Proof.
  intros Hguard. unfold handleInput. rewrite Hguard. reflexivity.
Qed.

(** The [then] branch of [handleInput]. *)
Lemma handleInput_block (props : Props) (newValue : string) (c : Composer) :
  JS.truthy_number (maxChars props)
    && JS.gt (Z.of_nat (String.length newValue)) (maxChars props) = true ->
  handleInput props newValue c =
    (tt, {| inputValue := inputValue c;
            isSendButtonDisabled := true;
            warningMessage :=
              JS.nullish (maxCharsWarningMessage props)
                ("You exceeded the characters limit. Please input less than "
                   ++ JS.template (maxChars props) ++ " characters.");
            inputRef := inputRef c;
            audioRef := audioRef c |}, []).
Proof.
  intros Hguard. unfold handleInput. rewrite Hguard. reflexivity.
Qed.

(** C1.  An input-change event whose new text is no longer than the configured
    [maxChars], or any such event when [maxChars] is unset, makes the text
    state the new text, empties the warning message and enables the send
    action; the handler calls nothing outside the component. *)
Theorem handleInput_within_limit (props : Props) (newValue : string) (c : Composer) :
  (maxChars props = None \/
   exists m, maxChars props = Some m /\ Z.of_nat (String.length newValue) <= m) ->
  let c' := after (handleInput props newValue c) in
  inputValue c' = newValue /\
  warningMessage c' = ""%string /\
  isSendButtonDisabled c' = false /\
  calls (handleInput props newValue c) = [].
Proof.
  intros Hlimit.
  rewrite handleInput_commit.
  - cbn. repeat split.
  - destruct Hlimit as [-> | (m & -> & Hle)]; [reflexivity|].
    cbn. destruct (Z.gtb_spec (Z.of_nat (String.length newValue)) m); [lia|].
    apply andb_false_r.
Qed.

Lemma handleInput_within_limit_witness :
  let props := {| defaultValue := None; disabled := None; maxChars := Some 5;
                  maxCharsWarningMessage := None; autoFocus := None;
                  sendMessageSound := None; sendSoundLocation := None |} in
  let c := {| inputValue := "hell"; isSendButtonDisabled := true;
              warningMessage := "too long"; inputRef := None; audioRef := None |} in
  inputValue (after (handleInput props "hello" c)) = "hello"%string /\
  warningMessage (after (handleInput props "hello" c)) = ""%string /\
  isSendButtonDisabled (after (handleInput props "hello" c)) = false /\
  calls (handleInput props "hello" c) = [].
Proof.
  intros props c.
  apply (handleInput_within_limit props "hello" c).
  right. exists 5. split; [reflexivity | simpl; lia].
Defined.

(** The default warning text is never empty. *)
Lemma default_warning_nonempty (n : option Z) :
  ("You exceeded the characters limit. Please input less than "
     ++ JS.template n ++ " characters.")%string <> ""%string.
Proof.
  simpl. discriminate.
Qed.

(** C2, as amended.  An input-change event whose new text is longer than a
    configured, non-zero [maxChars] leaves the text state as it was, disables
    the send action, and sets the warning message to the host's
    [maxCharsWarningMessage] when one is given and to the default text with
    the limit otherwise; that warning is non-empty unless the host's message
    is the empty string. *)
Theorem handleInput_over_limit (props : Props) (newValue : string) (c : Composer) (m : Z) :
  maxChars props = Some m ->
  m <> 0 ->
  Z.of_nat (String.length newValue) > m ->
  let c' := after (handleInput props newValue c) in
  inputValue c' = inputValue c /\
  warningMessage c' =
    JS.nullish (maxCharsWarningMessage props)
      ("You exceeded the characters limit. Please input less than "
         ++ JS.number_to_string m ++ " characters.") /\
  (maxCharsWarningMessage props <> Some ""%string -> warningMessage c' <> ""%string) /\
  isSendButtonDisabled c' = true.
Proof.
  intros Hmax Hm Hlen.
  rewrite handleInput_block.
  - cbn. rewrite Hmax. cbn [JS.template]. repeat split.
    destruct (maxCharsWarningMessage props) as [w|]; cbn [JS.nullish].
    + intros Hw ->. now apply Hw.
    + intros _. apply (default_warning_nonempty (Some m)).
  - rewrite Hmax. cbn.
    destruct (Z.eqb_spec m 0); [contradiction|].
    destruct (Z.gtb_spec (Z.of_nat (String.length newValue)) m); [reflexivity | lia].
Qed.

Lemma handleInput_over_limit_witness :
  let props := {| defaultValue := None; disabled := None; maxChars := Some 5;
                  maxCharsWarningMessage := None; autoFocus := None;
                  sendMessageSound := None; sendSoundLocation := None |} in
  let c := {| inputValue := "hello"; isSendButtonDisabled := false;
              warningMessage := ""; inputRef := None; audioRef := None |} in
  inputValue (after (handleInput props "hello!" c)) = "hello"%string /\
  warningMessage (after (handleInput props "hello!" c)) =
    "You exceeded the characters limit. Please input less than 5 characters."%string /\
  (maxCharsWarningMessage props <> Some ""%string ->
   warningMessage (after (handleInput props "hello!" c)) <> ""%string) /\
  isSendButtonDisabled (after (handleInput props "hello!" c)) = true.
Proof.
  intros props c.
  apply (handleInput_over_limit props "hello!" c 5).
  - reflexivity.
  - lia.
  - simpl; lia.
Defined.

(** C2, as stated, fails twice.  With [maxChars = 0] a one-character input is
    longer than the configured limit, yet it is committed, with no warning
    and the send action enabled.  With [maxChars = 5] and an empty
    host-supplied warning, an over-long input is refused but the warning
    set is the empty string. *)
Lemma handleInput_over_limit_counterexample :
  (let props := {| defaultValue := None; disabled := None; maxChars := Some 0;
                   maxCharsWarningMessage := None; autoFocus := None;
                   sendMessageSound := None; sendSoundLocation := None |} in
   let c := {| inputValue := ""; isSendButtonDisabled := false;
               warningMessage := ""; inputRef := None; audioRef := None |} in
   let c' := after (handleInput props "a" c) in
   Z.of_nat (String.length "a") > 0 /\
   inputValue c' <> inputValue c /\
   warningMessage c' = ""%string /\
   isSendButtonDisabled c' = false)
  /\
  (let props := {| defaultValue := None; disabled := None; maxChars := Some 5;
                   maxCharsWarningMessage := Some ""%string; autoFocus := None;
                   sendMessageSound := None; sendSoundLocation := None |} in
   let c := {| inputValue := "hello"; isSendButtonDisabled := false;
               warningMessage := ""; inputRef := None; audioRef := None |} in
   let c' := after (handleInput props "hello!" c) in
   Z.of_nat (String.length "hello!") > 5 /\
   inputValue c' = inputValue c /\
   warningMessage c' = ""%string /\
   isSendButtonDisabled c' = true).
Proof.
  split; cbn; repeat split; try lia; discriminate.
Qed.

(** The spec's example: with [maxChars = 5], typing "hello" shows no warning
    and leaves sending enabled; typing "hello!" next shows the warning,
    disables sending and keeps "hello" as the text. *)
Example typing_hello_then_more :
  let props := {| defaultValue := None; disabled := None; maxChars := Some 5;
                  maxCharsWarningMessage := None; autoFocus := None;
                  sendMessageSound := None; sendSoundLocation := None |} in
  let el := {| selectionStart := Some 0; selectionEnd := Some 0; validity := true |} in
  let c1 := after (handleInput props "hello" (TextInput props el)) in
  let c2 := after (handleInput props "hello!" c1) in
  (inputValue c1, warningMessage c1, isSendButtonDisabled c1)
    = ("hello", "", false)%string /\
  (inputValue c2, warningMessage c2, isSendButtonDisabled c2)
    = ("hello",
       "You exceeded the characters limit. Please input less than 5 characters.",
       true)%string.
Proof.
  split; reflexivity.
Qed.

(** C9.  With [maxChars] configured as 0 the limit is not enforced: every
    input-change event, of any length, commits the text, leaves the warning
    empty and the send action enabled, and the handler returns exactly what
    it returns under props that differ only in leaving [maxChars] unset. *)
Theorem handleInput_maxChars_zero (props : Props) (newValue : string) (c : Composer) :
  maxChars props = Some 0 ->
  let unset := {| defaultValue := defaultValue props;
                  disabled := disabled props;
                  maxChars := None;
                  maxCharsWarningMessage := maxCharsWarningMessage props;
                  autoFocus := autoFocus props;
                  sendMessageSound := sendMessageSound props;
                  sendSoundLocation := sendSoundLocation props |} in
  let c' := after (handleInput props newValue c) in
  inputValue c' = newValue /\
  warningMessage c' = ""%string /\
  isSendButtonDisabled c' = false /\
  handleInput props newValue c = handleInput unset newValue c.
Proof.
  intros Hzero unset.
  rewrite !handleInput_commit.
  - cbn. repeat split.
  - reflexivity.
  - rewrite Hzero. reflexivity.
Qed.

Lemma handleInput_maxChars_zero_witness :
  let props := {| defaultValue := None; disabled := None; maxChars := Some 0;
                  maxCharsWarningMessage := None; autoFocus := None;
                  sendMessageSound := None; sendSoundLocation := None |} in
  let unset := {| defaultValue := None; disabled := None; maxChars := None;
                  maxCharsWarningMessage := None; autoFocus := None;
                  sendMessageSound := None; sendSoundLocation := None |} in
  let c := {| inputValue := ""; isSendButtonDisabled := false;
              warningMessage := ""; inputRef := None; audioRef := None |} in
  inputValue (after (handleInput props "a long message" c)) = "a long message"%string /\
  warningMessage (after (handleInput props "a long message" c)) = ""%string /\
  isSendButtonDisabled (after (handleInput props "a long message" c)) = false /\
  handleInput props "a long message" c = handleInput unset "a long message" c.
Proof.
  intros props unset c.
  apply (handleInput_maxChars_zero props "a long message" c).
  reflexivity.
Defined.

(** *** Submission *)

(** Reading a signal first is running the rest on its value. *)
Lemma bind_read {A B : Type} (signal : Composer -> A) (k : A -> Handler B) (c : Composer) :
  bind (read signal) k c = k (signal c) c.
Proof.
  unfold bind, read. simpl. destruct (k (signal c) c) as [[b c'] l]. reflexivity.
Qed.

(** [checkIfInputIsValid] reads the composer and changes nothing; its answer
    is the conjunction of its three tests. *)
Lemma checkIfInputIsValid_spec (c : Composer) :
  checkIfInputIsValid c =
    (negb (inputValue c =? "")%string
       && (warningMessage c =? "")%string
       && field_reports_valid c, c, []).
Proof.
  unfold checkIfInputIsValid, field_reports_valid, inputRef_reportValidity,
    bind, read, ret; simpl.
  destruct (inputValue c =? "")%string; simpl; [reflexivity|].
  destruct (warningMessage c =? "")%string; simpl; [|reflexivity].
  destruct (inputRef c); reflexivity.
Qed.

(** [submit] after a failed check. *)
Lemma submit_invalid (props : Props) (c : Composer) :
  result (checkIfInputIsValid c) = false ->
  submit props c = (tt, c, []).
Proof.
  unfold submit, bind, result. intros ->.
  rewrite checkIfInputIsValid_spec. reflexivity.
Qed.

(** [submit] after a successful check. *)
Lemma submit_valid (props : Props) (c : Composer) :
  result (checkIfInputIsValid c) = true ->
  submit props c =
    (tt,
     {| inputValue := "";
        isSendButtonDisabled := isSendButtonDisabled c;
        warningMessage := warningMessage c;
        inputRef := inputRef c;
        audioRef := audioRef c |},
     onSubmit (inputValue c)
       :: if JS.truthy_boolean (sendMessageSound props)
          then match audioRef c with
               | Some a => [play a]
               | None => []
               end
          else []).
Proof.
  unfold submit, bind, result. intros ->.
  rewrite checkIfInputIsValid_spec.
  unfold read, call, ret, setInputValue.
  destruct (JS.truthy_boolean (sendMessageSound props));
    destruct c as [v d w ref [a|]]; reflexivity.
Qed.

(** What a successful check means for the host: one [onSubmit], with the
    text, and an empty text state afterwards. *)
Lemma submit_valid_onSubmit (props : Props) (c : Composer) :
  result (checkIfInputIsValid c) = true ->
  onSubmit_calls (calls (submit props c)) = [inputValue c] /\
  inputValue (after (submit props c)) = ""%string.
Proof.
  intros Hok. rewrite (submit_valid props c Hok). cbn. split; [|reflexivity].
  destruct (JS.truthy_boolean (sendMessageSound props)); [|reflexivity].
  destruct (audioRef c) as [a|]; reflexivity.
Qed.

(** C3.  A submit while the text state is empty, or the warning message is
    non-empty, or the field reports itself invalid, calls [onSubmit] not at
    all (it calls nothing) and leaves the composer, hence its text, warning
    and send-disabled flag, as it was. *)
Theorem submit_rejected (props : Props) (c : Composer) :
  (inputValue c = ""%string \/
   warningMessage c <> ""%string \/
   field_reports_valid c = false) ->
  onSubmit_calls (calls (submit props c)) = [] /\
  calls (submit props c) = [] /\
  after (submit props c) = c.
Proof.
  intros Hbad.
  rewrite submit_invalid; [repeat split|].
  rewrite checkIfInputIsValid_spec. cbn.
  destruct Hbad as [-> | [Hw | ->]].
  - reflexivity.
  - apply String.eqb_neq in Hw. rewrite Hw, andb_false_r. reflexivity.
  - apply andb_false_r.
Qed.

Lemma submit_rejected_witness :
  let props := {| defaultValue := None; disabled := None; maxChars := Some 5;
                  maxCharsWarningMessage := None; autoFocus := None;
                  sendMessageSound := Some true; sendSoundLocation := None |} in
  let c := {| inputValue := "hello"; isSendButtonDisabled := true;
              warningMessage := "too long";
              inputRef := Some {| selectionStart := Some 5; selectionEnd := Some 5;
                                  validity := true |};
              audioRef := Some {| src := defaultSendSound |} |} in
  onSubmit_calls (calls (submit props c)) = [] /\
  calls (submit props c) = [] /\
  after (submit props c) = c.
Proof.
  intros props c.
  apply (submit_rejected props c).
  right; left. simpl. discriminate.
Defined.

(** C4.  A submit while the text state is non-empty, the warning message is
    empty and the field reports itself valid calls [onSubmit] exactly once,
    before anything else, with the text state as it is (nothing is trimmed);
    afterwards the text state is the empty string and the rest of the
    composer is as before. *)
Theorem submit_accepted (props : Props) (c : Composer) :
  inputValue c <> ""%string ->
  warningMessage c = ""%string ->
  field_reports_valid c = true ->
  let r := submit props c in
  onSubmit_calls (calls r) = [inputValue c] /\
  hd_error (calls r) = Some (onSubmit (inputValue c)) /\
  inputValue (after r) = ""%string /\
  warningMessage (after r) = warningMessage c /\
  isSendButtonDisabled (after r) = isSendButtonDisabled c.
Proof.
  intros Htext Hwarn Hvalid.
  rewrite submit_valid.
  - cbn. repeat split.
    destruct (JS.truthy_boolean (sendMessageSound props)); [|reflexivity].
    destruct (audioRef c) as [a|]; reflexivity.
  - rewrite checkIfInputIsValid_spec. cbn.
    apply String.eqb_neq in Htext. rewrite Htext, Hwarn, Hvalid. reflexivity.
Qed.

Lemma submit_accepted_witness :
  let props := {| defaultValue := None; disabled := None; maxChars := Some 5;
                  maxCharsWarningMessage := None; autoFocus := None;
                  sendMessageSound := Some true; sendSoundLocation := None |} in
  let c := {| inputValue := " hi "; isSendButtonDisabled := false;
              warningMessage := "";
              inputRef := Some {| selectionStart := Some 4; selectionEnd := Some 4;
                                  validity := true |};
              audioRef := Some {| src := defaultSendSound |} |} in
  onSubmit_calls (calls (submit props c)) = [" hi "%string] /\
  hd_error (calls (submit props c)) = Some (onSubmit " hi ") /\
  inputValue (after (submit props c)) = ""%string /\
  warningMessage (after (submit props c)) = ""%string /\
  isSendButtonDisabled (after (submit props c)) = false.
Proof.
  intros props c.
  apply (submit_accepted props c).
  - simpl. discriminate.
  - reflexivity.
  - reflexivity.
Defined.

(** C5.  A keyboard event delivered to the Enter handler during an IME
    composition (its composing flag is set, or its key code is 229) does not
    reach [submit]: the handler calls nothing, so [onSubmit] is not invoked,
    and the composer is unchanged, whatever the key, Enter included. *)
Theorem submitWhenEnter_composing (props : Props) (e : KeyboardEvent) (c : Composer) :
  (isComposing e = true \/ keyCode e = 229) ->
  submitWhenEnter props e c = (tt, c, []).
Proof.
  intros Hime.
  assert (Hflag : isComposing e || (keyCode e =? 229) = true).
  { destruct Hime as [-> | ->]; [reflexivity | apply orb_true_r]. }
  unfold submitWhenEnter, bind, read. simpl.
  rewrite Hflag. simpl. rewrite andb_false_r. reflexivity.
Qed.

Lemma submitWhenEnter_composing_witness :
  let props := {| defaultValue := None; disabled := None; maxChars := None;
                  maxCharsWarningMessage := None; autoFocus := None;
                  sendMessageSound := None; sendSoundLocation := None |} in
  let e := {| key := "Enter"; isComposing := false; keyCode := 229 |} in
  let c := {| inputValue := "ni"; isSendButtonDisabled := false;
              warningMessage := "";
              inputRef := Some {| selectionStart := Some 2; selectionEnd := Some 2;
                                  validity := true |};
              audioRef := None |} in
  submitWhenEnter props e c = (tt, c, []).
Proof.
  intros props e c.
  apply (submitWhenEnter_composing props e c).
  right. reflexivity.
Defined.

(** Outside a composition, Enter with no warning is [submit]. *)
Lemma submitWhenEnter_plain (props : Props) (e : KeyboardEvent) (c : Composer) :
  key e = "Enter"%string ->
  isComposing e = false ->
  keyCode e <> 229 ->
  warningMessage c = ""%string ->
  submitWhenEnter props e c = submit props c.
Proof.
  intros Hkey Hcomp Hcode Hwarn.
  unfold submitWhenEnter. rewrite bind_read.
  apply Z.eqb_neq in Hcode. rewrite Hkey, Hcomp, Hcode, Hwarn. reflexivity.
Qed.

(** *** Backspace *)

(** [deleteCharacter] with the cursor of the field at a positive [p]. *)
Lemma deleteCharacter_at (c : Composer) (el : HTMLInputElement) (p : Z) :
  inputRef c = Some el ->
  selectionStart el = Some p ->
  0 < p ->
  deleteCharacter c =
    (tt,
     {| inputValue :=
          JS.slice (inputValue c) 0 (Some (p - 1)) ++ JS.slice (inputValue c) p None;
        isSendButtonDisabled := isSendButtonDisabled c;
        warningMessage := warningMessage c;
        inputRef := Some {| selectionStart := Some (p - 1);
                            selectionEnd := Some (p - 1);
                            validity := validity el |};
        audioRef := audioRef c |},
     [setSelectionRange (p - 1) (p - 1)]).
Proof.
  intros Href Hsel Hp.
  unfold deleteCharacter. rewrite !bind_read, Href, Hsel. cbn [JS.nullish].
  destruct (Z.gtb_spec p 0) as [_|H]; [|lia].
  unfold bind, setInputValue, inputRef_setSelectionRange. cbn. rewrite Href. reflexivity.
Qed.

(** [deleteCharacter] with the cursor at 0, with a field that has no
    selection, or with no field at all. *)
Lemma deleteCharacter_at_start (c : Composer) :
  JS.nullish (cursor c) 0 <= 0 ->
  deleteCharacter c = (tt, c, []).
Proof.
  intros Hp. unfold deleteCharacter. rewrite !bind_read. fold (cursor c).
  destruct (Z.gtb_spec (JS.nullish (cursor c) 0) 0) as [H|_]; [lia | reflexivity].
Qed.

(** C6, as amended.  When a Backspace key event is handled with the cursor of
    the field at [p]: if [0 < p <= length text], the new text state is the old
    one with exactly the character of index [p - 1] removed; if [p] is beyond
    the end of the text state, the text state stays as it is; in both cases
    the cursor is repositioned to [p - 1] and the warning and the
    send-disabled flag are untouched.  If [p = 0], the handler changes
    nothing. *)
Theorem backspace_at_cursor (e : KeyboardEvent) (c : Composer) (el : HTMLInputElement) (p : Z) :
  key e = "Backspace"%string ->
  inputRef c = Some el ->
  selectionStart el = Some p ->
  let c' := after (handleKeyPress e c) in
  (0 < p <= Z.of_nat (String.length (inputValue c)) ->
   (exists pre ch post,
      inputValue c = (pre ++ String ch post)%string /\
      Z.of_nat (String.length pre) = p - 1 /\
      String.get (Z.to_nat (p - 1)) (inputValue c) = Some ch /\
      inputValue c' = (pre ++ post)%string) /\
   cursor c' = Some (p - 1) /\
   warningMessage c' = warningMessage c /\
   isSendButtonDisabled c' = isSendButtonDisabled c) /\
  (Z.of_nat (String.length (inputValue c)) < p ->
   inputValue c' = inputValue c /\
   cursor c' = Some (p - 1) /\
   warningMessage c' = warningMessage c /\
   isSendButtonDisabled c' = isSendButtonDisabled c) /\
  (p = 0 -> handleKeyPress e c = (tt, c, [])).
Proof.
  intros Hkey Href Hsel. unfold handleKeyPress. rewrite Hkey. cbn [String.eqb Ascii.eqb Bool.eqb].
  cbv zeta. split; [|split].
  - intros [Hpos Hle].
    rewrite (deleteCharacter_at c el p Href Hsel Hpos). cbn.
    split; [|repeat split].
    destruct (split_at_index (Z.to_nat (p - 1)) (inputValue c)) as (pre & ch & post & Hv & Hlen);
      [lia|].
    exists pre, ch, post.
    assert (Hp1 : p - 1 = Z.of_nat (String.length pre)) by lia.
    repeat split.
    + exact Hv.
    + lia.
    + rewrite <- Hlen, Hv. apply get_middle.
    + rewrite Hv at 1. rewrite Hp1, slice_before.
      replace p with (Z.of_nat (String.length (pre ++ String ch "")))
        by (rewrite length_app_string; simpl; lia).
      rewrite Hv.
      replace (pre ++ String ch post)%string with ((pre ++ String ch "") ++ post)%string.
      * now rewrite slice_after.
      * clear. induction pre as [|a pre IH]; simpl; [reflexivity | now rewrite IH].
  - intros Hbeyond.
    rewrite (deleteCharacter_at c el p Href Hsel) by lia. cbn.
    destruct (slice_beyond (inputValue c) p Hbeyond) as [-> ->].
    repeat split.
    clear. induction (inputValue c) as [|a s IH]; simpl; [reflexivity | now rewrite IH].
  - intros ->. apply deleteCharacter_at_start.
    unfold cursor. rewrite Href, Hsel. simpl. lia.
Qed.

Lemma backspace_at_cursor_witness :
  let e := {| key := "Backspace"; isComposing := false; keyCode := 8 |} in
  let el := {| selectionStart := Some 3; selectionEnd := Some 3; validity := true |} in
  let c := {| inputValue := "hello"; isSendButtonDisabled := false;
              warningMessage := ""; inputRef := Some el; audioRef := None |} in
  let c' := after (handleKeyPress e c) in
  (exists pre ch post,
     inputValue c = (pre ++ String ch post)%string /\
     Z.of_nat (String.length pre) = 3 - 1 /\
     String.get (Z.to_nat (3 - 1)) (inputValue c) = Some ch /\
     inputValue c' = (pre ++ post)%string) /\
  cursor c' = Some (3 - 1) /\
  warningMessage c' = warningMessage c /\
  isSendButtonDisabled c' = isSendButtonDisabled c.
Proof.
  intros e el c.
  destruct (backspace_at_cursor e c el 3 eq_refl eq_refl eq_refl) as [Hinside _].
  apply Hinside. simpl. lia.
Defined.

(** The same event, evaluated: "hello" with the cursor after "hel". *)
Example backspace_hello :
  let e := {| key := "Backspace"; isComposing := false; keyCode := 8 |} in
  let el := {| selectionStart := Some 3; selectionEnd := Some 3; validity := true |} in
  let c := {| inputValue := "hello"; isSendButtonDisabled := false;
              warningMessage := ""; inputRef := Some el; audioRef := None |} in
  inputValue (after (handleKeyPress e c)) = "helo"%string /\
  cursor (after (handleKeyPress e c)) = Some 2 /\
  calls (handleKeyPress e c) = [setSelectionRange 2 2].
Proof.
  repeat split.
Qed.

(** C6, as stated, fails when the cursor of the field is beyond the end of
    the text state (the field shows a refused, over-long text while the text
    state keeps the last accepted one): with the text state "ab" and the
    cursor at 5, Backspace removes no character, and the text state has no
    character of index 4 that could have been removed. *)
Lemma backspace_at_cursor_counterexample :
  let e := {| key := "Backspace"; isComposing := false; keyCode := 8 |} in
  let el := {| selectionStart := Some 5; selectionEnd := Some 5; validity := true |} in
  let c := {| inputValue := "ab"; isSendButtonDisabled := true;
              warningMessage := "too long"; inputRef := Some el; audioRef := None |} in
  let c' := after (handleKeyPress e c) in
  5 > 0 /\
  inputValue c' = inputValue c /\
  cursor c' = Some 4 /\
  ~ (exists pre ch post,
       inputValue c = (pre ++ String ch post)%string /\
       Z.of_nat (String.length pre) = 5 - 1 /\
       inputValue c' = (pre ++ post)%string).
Proof.
  cbn. repeat split; try lia.
  intros (pre & ch & post & Hv & Hlen & _).
  apply (f_equal String.length) in Hv. rewrite length_app_string in Hv.
  simpl in Hv. lia.
Qed.

(** Any other key leaves the composer alone. *)
Lemma handleKeyPress_other (e : KeyboardEvent) (c : Composer) :
  key e <> "Backspace"%string ->
  handleKeyPress e c = (tt, c, []).
Proof.
  intros Hkey. unfold handleKeyPress.
  apply String.eqb_neq in Hkey. rewrite Hkey. reflexivity.
Qed.

(** *** Mounting *)

(** The signals are not touched by [onMount]. *)
Lemma onMount_signals (props : Props) (w : Window) (c : Composer) :
  let c' := after (onMount props w c) in
  inputValue c' = inputValue c /\
  warningMessage c' = warningMessage c /\
  isSendButtonDisabled c' = isSendButtonDisabled c /\
  inputRef c' = inputRef c.
Proof.
  unfold onMount. rewrite bind_read.
  unfold bind, call, ret, setAudioRef, after.
  destruct (negb (JS.truthy_boolean (disabled props)) && _ && JS.truthy_ref (inputRef c));
    destruct (JS.truthy_boolean (sendMessageSound props));
    try destruct (JS.truthy_string (sendSoundLocation props));
    cbn; repeat split.
Qed.

(** The calls of [onMount]: [focus] or nothing. *)
Lemma onMount_calls (props : Props) (w : Window) (c : Composer) :
  calls (onMount props w c) =
    if negb (JS.truthy_boolean (disabled props))
         && match autoFocus props with
            | Some b => b
            | None => negb (isMobile w) && (innerWidth w >? 640)
            end
         && JS.truthy_ref (inputRef c)
    then [focus]
    else [].
Proof.
  unfold onMount. rewrite bind_read.
  unfold bind, call, ret, setAudioRef, calls.
  destruct (negb (JS.truthy_boolean (disabled props)) && _ && JS.truthy_ref (inputRef c));
    destruct (JS.truthy_boolean (sendMessageSound props));
    try destruct (JS.truthy_string (sendSoundLocation props));
    reflexivity.
Qed.

(** C7.  On mount, [focus()] is called on the text field if and only if the
    widget is not disabled and either the host set [autoFocus] to true, or
    [autoFocus] is unset, the device is not mobile-class and the viewport is
    more than 640 pixels wide. *)
Theorem mount_focus (props : Props) (el : HTMLInputElement) (w : Window) :
  In focus (calls (mount props el w)) <->
  disabled props <> Some true /\
  (autoFocus props = Some true \/
   (autoFocus props = None /\ isMobile w = false /\ innerWidth w > 640)).
Proof.
  unfold mount. rewrite onMount_calls. cbn [TextInput inputRef JS.truthy_ref].
  rewrite andb_true_r.
  assert (Hwide : (innerWidth w >? 640) = true <-> innerWidth w > 640).
  { destruct (Z.gtb_spec (innerWidth w) 640); split; intros; try reflexivity;
      try discriminate; lia. }
  destruct (disabled props) as [[|]|], (autoFocus props) as [[|]|]; cbn;
    try (destruct (isMobile w); cbn);
    try (destruct (innerWidth w >? 640); cbn);
    (split;
     [ intros Hin;
       try (destruct Hin as [_|[]]);
       try contradiction;
       (split;
        [ discriminate
        | first [ left; reflexivity
                | right; repeat split; apply Hwide; reflexivity ] ])
     | intros [Hdis Hauto];
       try (exfalso; apply Hdis; reflexivity);
       try (left; reflexivity);
       destruct Hauto as [Hauto | (Hauto & Hmob & Hw)];
       try discriminate;
       apply Hwide in Hw; discriminate ]).
Qed.

(** *** File selection *)

(** C8.  On a file-selection event, whose target is the file picker, the
    component calls the host's [handleFileChange] with the event as received
    (the picker still naming the chosen file), calls nothing else, and
    afterwards the picker's value is the empty string; choosing the same file
    again then changes the picker's value and so dispatches the same event
    again, which without the reset it would not. *)
Theorem handleFileChange_forwards_then_resets (event : FileEvent) (inp : HTMLFileInput) (c : Composer) :
  target event = Some inp ->
  let r := handleFileChange event c in
  calls r = [hostHandleFileChange event] /\
  target (result r) = Some {| value := "" |} /\
  after r = c /\
  (value inp <> ""%string ->
   chooseFile (value inp) inp = None /\
   chooseFile (value inp) {| value := "" |} = Some event).
Proof.
  intros Htarget. unfold handleFileChange, bind, call, ret, calls, result, after.
  rewrite Htarget. cbn [fst snd app].
  split; [reflexivity | split; [reflexivity | split; [reflexivity|]]].
  intros Hchosen. unfold chooseFile. split.
  - now rewrite String.eqb_refl.
  - destruct event as [t], inp as [v]. cbn in *. subst t.
    apply String.eqb_neq in Hchosen. now rewrite Hchosen.
Qed.

Lemma handleFileChange_forwards_then_resets_witness :
  let inp := {| value := "C:\fakepath\cat.png" |} in
  let event := {| target := Some inp |} in
  let c := {| inputValue := ""; isSendButtonDisabled := false;
              warningMessage := ""; inputRef := None; audioRef := None |} in
  calls (handleFileChange event c) = [hostHandleFileChange event] /\
  target (result (handleFileChange event c)) = Some {| value := "" |} /\
  after (handleFileChange event c) = c /\
  (value inp <> ""%string ->
   chooseFile (value inp) inp = None /\
   chooseFile (value inp) {| value := "" |} = Some event).
Proof.
  intros inp event c.
  apply (handleFileChange_forwards_then_resets event inp c).
  reflexivity.
Defined.

(** An event without a target is forwarded all the same; there is nothing
    to reset. *)
Lemma handleFileChange_no_target (event : FileEvent) (c : Composer) :
  target event = None ->
  handleFileChange event c = (event, c, [hostHandleFileChange event]).
Proof.
  intros Htarget. unfold handleFileChange, bind, call, ret. rewrite Htarget. reflexivity.
Qed.

(** *** The initial state *)

(** C10.  A freshly mounted widget has as text state the host's
    [defaultValue] (the empty string when there is none), no warning, and
    the send action enabled, whatever [maxChars] is: the default text goes
    through no limit check.  Such a default text, over the limit or not, is
    submitted by [submit] as soon as it is non-empty and the field reports
    itself valid; in particular a default text longer than a limit
    [maxChars >= 0] is submitted when the field reports itself valid. *)
Theorem mount_initial_state (props : Props) (el : HTMLInputElement) (w : Window) :
  let c := after (mount props el w) in
  inputValue c = JS.nullish (defaultValue props) ""%string /\
  warningMessage c = ""%string /\
  isSendButtonDisabled c = false /\
  (inputValue c <> ""%string ->
   validity el = true ->
   onSubmit_calls (calls (submit props c)) = [JS.nullish (defaultValue props) ""%string] /\
   inputValue (after (submit props c)) = ""%string) /\
  (forall m,
     maxChars props = Some m ->
     0 <= m < Z.of_nat (String.length (inputValue c)) ->
     validity el = true ->
     onSubmit_calls (calls (submit props c)) = [JS.nullish (defaultValue props) ""%string]).
Proof.
  intros c.
  assert (Hsignals :
            inputValue c = inputValue (TextInput props el) /\
            warningMessage c = warningMessage (TextInput props el) /\
            isSendButtonDisabled c = isSendButtonDisabled (TextInput props el) /\
            inputRef c = inputRef (TextInput props el))
    by exact (onMount_signals props w (TextInput props el)).
  clearbody c. cbn in Hsignals. destruct Hsignals as (Hv & Hw & Hd & Href).
  assert (Hsubmit :
            inputValue c <> ""%string ->
            validity el = true ->
            onSubmit_calls (calls (submit props c)) = [JS.nullish (defaultValue props) ""%string] /\
            inputValue (after (submit props c)) = ""%string).
  { intros Htext Hvalid. rewrite <- Hv.
    apply submit_valid_onSubmit.
    rewrite checkIfInputIsValid_spec. cbn. unfold field_reports_valid.
    apply String.eqb_neq in Htext. rewrite Htext, Hw, Href, Hvalid. reflexivity. }
  split; [exact Hv | split; [exact Hw | split; [exact Hd | split; [exact Hsubmit|]]]].
  intros m _ Hover Hvalid. apply Hsubmit; [|exact Hvalid].
  intros Hempty. rewrite Hempty in Hover. simpl in Hover. lia.
Qed.

Lemma mount_initial_state_witness :
  let props := {| defaultValue := Some "hello world"%string; disabled := None;
                  maxChars := Some 5; maxCharsWarningMessage := None;
                  autoFocus := None; sendMessageSound := None;
                  sendSoundLocation := None |} in
  let el := {| selectionStart := Some 11; selectionEnd := Some 11; validity := true |} in
  let w := {| isMobile := false; innerWidth := 1024 |} in
  let c := after (mount props el w) in
  Z.of_nat (String.length (inputValue c)) > 5 /\
  warningMessage c = ""%string /\
  isSendButtonDisabled c = false /\
  onSubmit_calls (calls (submit props c)) = ["hello world"%string] /\
  inputValue (after (submit props c)) = ""%string.
Proof.
  intros props el w c.
  destruct (mount_initial_state props el w) as (Hv & Hw & Hd & Hsubmit & _).
  destruct Hsubmit as [Hcalls Hreset]; [cbn; discriminate | reflexivity |].
  split; [cbn; lia | repeat split; assumption].
Defined.

(** ** Further properties of the handlers *)

(** *** Sequencing and the call log *)

Lemma after_bind {A B : Type} (m : Handler A) (k : A -> Handler B) (c : Composer) :
  after (bind m k c) = after (k (result (m c)) (after (m c))).
Proof. reflexivity. Qed.

Lemma calls_bind {A B : Type} (m : Handler A) (k : A -> Handler B) (c : Composer) :
  calls (bind m k c) = (calls (m c) ++ calls (k (result (m c)) (after (m c))))%list.
Proof. reflexivity. Qed.

Lemma onSubmit_calls_app (l1 l2 : list Call) :
  onSubmit_calls (l1 ++ l2) = (onSubmit_calls l1 ++ onSubmit_calls l2)%list.
Proof.
  induction l1 as [|[t|a| |from to|event] l1 IH]; simpl; rewrite ?IH; reflexivity.
Qed.

Lemma plays_app (l1 l2 : list Call) :
  plays (l1 ++ l2) = (plays l1 ++ plays l2)%list.
Proof.
  induction l1 as [|[t|a| |from to|event] l1 IH]; simpl; rewrite ?IH; reflexivity.
Qed.

(** *** The handlers by cases *)

(** [handleInput] takes one of its two branches. *)
Lemma handleInput_cases (props : Props) (newValue : string) (c : Composer) :
  (exceedsLimit props newValue = false /\
   handleInput props newValue c =
     (tt, {| inputValue := newValue;
             isSendButtonDisabled := false;
             warningMessage := "";
             inputRef := inputRef c;
             audioRef := audioRef c |}, []))
  \/
  (exceedsLimit props newValue = true /\
   handleInput props newValue c =
     (tt, {| inputValue := inputValue c;
             isSendButtonDisabled := true;
             warningMessage := limitWarning props;
             inputRef := inputRef c;
             audioRef := audioRef c |}, [])).
Proof.
  destruct (exceedsLimit props newValue) eqn:Hguard; [right | left]; split; try reflexivity.
  - now apply handleInput_block.
  - now apply handleInput_commit.
Qed.

(** [submit] either does nothing or sends the text and clears it. *)
Lemma submit_cases (props : Props) (c : Composer) :
  submit props c = (tt, c, [])
  \/
  (inputValue c <> ""%string /\
   warningMessage c = ""%string /\
   field_reports_valid c = true /\
   submit props c =
     (tt,
      {| inputValue := "";
         isSendButtonDisabled := isSendButtonDisabled c;
         warningMessage := warningMessage c;
         inputRef := inputRef c;
         audioRef := audioRef c |},
      onSubmit (inputValue c)
        :: if JS.truthy_boolean (sendMessageSound props)
           then match audioRef c with
                | Some a => [play a]
                | None => []
                end
           else [])).
Proof.
  destruct (result (checkIfInputIsValid c)) eqn:Hok.
  - right. pose proof Hok as Hok'.
    rewrite checkIfInputIsValid_spec in Hok'. cbn in Hok'.
    apply andb_prop in Hok'. destruct Hok' as [Hok' Hvalid].
    apply andb_prop in Hok'. destruct Hok' as [Htext Hwarn].
    repeat split.
    + apply String.eqb_neq. now destruct (inputValue c =? "")%string.
    + now apply String.eqb_eq.
    + exact Hvalid.
    + now apply submit_valid.
  - left. now apply submit_invalid.
Qed.

(** A key-down either does nothing or is a [submit]. *)
Lemma submitWhenEnter_cases (props : Props) (e : KeyboardEvent) (c : Composer) :
  submitWhenEnter props e c = (tt, c, []) \/
  submitWhenEnter props e c = submit props c.
Proof.
  unfold submitWhenEnter. rewrite bind_read.
  destruct ((key e =? "Enter")%string && negb (isComposing e || (keyCode e =? 229))
              && (warningMessage c =? "")%string); [right | left]; reflexivity.
Qed.

(** What [deleteCharacter] makes of the text, for a cursor at [p > 0]. *)
Lemma delete_before_cursor (s : string) (p : Z) :
  0 < p ->
  let s' := (JS.slice s 0 (Some (p - 1)) ++ JS.slice s p None)%string in
  (exists pre ch post,
     s = (pre ++ String ch post)%string /\
     Z.of_nat (String.length pre) = p - 1 /\
     s' = (pre ++ post)%string)
  \/
  (Z.of_nat (String.length s) < p /\ s' = s).
Proof.
  intros Hp s'. subst s'.
  destruct (Z_lt_le_dec (Z.of_nat (String.length s)) p) as [Hbeyond | Hinside].
  - right. split; [exact Hbeyond|].
    destruct (slice_beyond s p Hbeyond) as [-> ->].
    clear. induction s as [|a s IH]; simpl; [reflexivity | now rewrite IH].
  - left.
    destruct (split_at_index (Z.to_nat (p - 1)) s) as (pre & ch & post & Hs & Hlen); [lia|].
    exists pre, ch, post. split; [exact Hs | split; [lia|]].
    assert (Hassoc : (pre ++ String ch post)%string = ((pre ++ String ch "") ++ post)%string).
    { clear. induction pre as [|a pre IH]; simpl; [reflexivity | now rewrite IH]. }
    replace (p - 1) with (Z.of_nat (String.length pre)) by lia.
    rewrite Hs at 1. rewrite slice_before.
    replace p with (Z.of_nat (String.length (pre ++ String ch "")))
      by (rewrite length_app_string; simpl; lia).
    rewrite Hs, Hassoc. now rewrite slice_after.
Qed.

(** The text loses at most one character, and never grows. *)
Lemma delete_before_cursor_length (s : string) (p : Z) :
  0 < p ->
  let s' := (JS.slice s 0 (Some (p - 1)) ++ JS.slice s p None)%string in
  (String.length s' <= String.length s <= String.length s' + 1)%nat.
Proof.
  intros Hp s'.
  destruct (delete_before_cursor s p Hp) as [(pre & ch & post & Hs & _ & Hs') | [_ Hs']];
    fold s' in Hs'; rewrite Hs'.
  - rewrite Hs, !length_app_string. simpl. lia.
  - lia.
Qed.

(** A key-press either does nothing or is a deletion before the cursor. *)
Lemma handleKeyPress_cases (e : KeyboardEvent) (c : Composer) :
  handleKeyPress e c = (tt, c, [])
  \/
  (exists el p,
     key e = "Backspace"%string /\
     inputRef c = Some el /\
     selectionStart el = Some p /\
     0 < p /\
     handleKeyPress e c =
       (tt,
        {| inputValue :=
             JS.slice (inputValue c) 0 (Some (p - 1)) ++ JS.slice (inputValue c) p None;
           isSendButtonDisabled := isSendButtonDisabled c;
           warningMessage := warningMessage c;
           inputRef := Some {| selectionStart := Some (p - 1);
                               selectionEnd := Some (p - 1);
                               validity := validity el |};
           audioRef := audioRef c |},
        [setSelectionRange (p - 1) (p - 1)])).
Proof.
  unfold handleKeyPress.
  destruct (String.eqb_spec (key e) "Backspace") as [Hkey|Hkey]; [|left; reflexivity].
  destruct (inputRef c) as [el|] eqn:Href.
  - destruct (selectionStart el) as [p|] eqn:Hsel.
    + destruct (Z_lt_le_dec 0 p) as [Hp|Hp].
      * right. exists el, p. repeat split; try assumption.
        now apply deleteCharacter_at.
      * left. apply deleteCharacter_at_start. unfold cursor.
        rewrite Href, Hsel. simpl. exact Hp.
    + left. apply deleteCharacter_at_start. unfold cursor.
      rewrite Href, Hsel. simpl. lia.
  - left. apply deleteCharacter_at_start. unfold cursor. rewrite Href. simpl. lia.
Qed.

(** *** One event *)

(** What one event does to the signals and to the host: it edits the text
    without growing it and without a word to the host (a deletion, or
    nothing at all); or it commits an input within the limit; or it refuses
    an input over the limit; or it sends the text.  [audioRef] is never
    reassigned. *)
Lemma dispatch_effect (props : Props) (ev : Event) (c : Composer) :
  let r := dispatch props ev c in
  audioRef (after r) = audioRef c /\
  (((String.length (inputValue (after r)) <= String.length (inputValue c))%nat /\
    isSendButtonDisabled (after r) = isSendButtonDisabled c /\
    warningMessage (after r) = warningMessage c /\
    onSubmit_calls (calls r) = [] /\
    plays (calls r) = [])
   \/
   (exists v,
      exceedsLimit props v = false /\
      inputValue (after r) = v /\
      isSendButtonDisabled (after r) = false /\
      warningMessage (after r) = ""%string /\
      calls r = [])
   \/
   (inputValue (after r) = inputValue c /\
    isSendButtonDisabled (after r) = true /\
    warningMessage (after r) = limitWarning props /\
    calls r = [])
   \/
   (inputValue c <> ""%string /\
    warningMessage c = ""%string /\
    inputValue (after r) = ""%string /\
    isSendButtonDisabled (after r) = isSendButtonDisabled c /\
    warningMessage (after r) = warningMessage c /\
    calls r =
      onSubmit (inputValue c)
        :: if JS.truthy_boolean (sendMessageSound props)
           then match audioRef c with
                | Some a => [play a]
                | None => []
                end
           else [])).
Proof.
  assert (Hsubmit :
            forall r, r = submit props c ->
              audioRef (after r) = audioRef c /\
              (((String.length (inputValue (after r)) <= String.length (inputValue c))%nat /\
                isSendButtonDisabled (after r) = isSendButtonDisabled c /\
                warningMessage (after r) = warningMessage c /\
                onSubmit_calls (calls r) = [] /\
                plays (calls r) = [])
               \/
               (exists v,
                  exceedsLimit props v = false /\
                  inputValue (after r) = v /\
                  isSendButtonDisabled (after r) = false /\
                  warningMessage (after r) = ""%string /\
                  calls r = [])
               \/
               (inputValue (after r) = inputValue c /\
                isSendButtonDisabled (after r) = true /\
                warningMessage (after r) = limitWarning props /\
                calls r = [])
               \/
               (inputValue c <> ""%string /\
                warningMessage c = ""%string /\
                inputValue (after r) = ""%string /\
                isSendButtonDisabled (after r) = isSendButtonDisabled c /\
                warningMessage (after r) = warningMessage c /\
                calls r =
                  onSubmit (inputValue c)
                    :: if JS.truthy_boolean (sendMessageSound props)
                       then match audioRef c with
                            | Some a => [play a]
                            | None => []
                            end
                       else []))).
  { intros r ->.
    destruct (submit_cases props c) as [-> | (Htext & Hwarn & _ & ->)].
    - split; [reflexivity|]. left. cbn. repeat split. lia.
    - split; [reflexivity|]. right; right; right. cbn. repeat split; assumption. }
  destruct ev as [v|e|e| |event|el]; cbn [dispatch]; cbv zeta.
  - destruct (handleInput_cases props v c) as [[Hguard ->] | [Hguard ->]].
    + split; [reflexivity|]. right; left. exists v. cbn. repeat split. exact Hguard.
    + split; [reflexivity|]. right; right; left. cbn. repeat split.
  - destruct (submitWhenEnter_cases props e c) as [-> | ->].
    + split; [reflexivity|]. left. cbn. repeat split. lia.
    + now apply Hsubmit.
  - destruct (handleKeyPress_cases e c) as [-> | (el & p & _ & _ & _ & Hp & ->)].
    + split; [reflexivity|]. left. cbn. repeat split. lia.
    + split; [reflexivity|]. left. cbn. repeat split.
      apply (delete_before_cursor_length (inputValue c) p Hp).
  - now apply Hsubmit.
  - assert (Hfile : (_ <- handleFileChange event ;; ret tt)%handler c
                    = (tt, c, [hostHandleFileChange event])).
    { unfold handleFileChange, bind, call, ret. destruct (target event); reflexivity. }
    rewrite Hfile. split; [reflexivity|]. left. cbn. repeat split. lia.
  - split; [unfold fieldUpdate, after; destruct (inputRef c); reflexivity|]. left.
    unfold fieldUpdate, after, calls. destruct (inputRef c); cbn; repeat split; lia.
Qed.

Lemma after_run_cons (props : Props) (ev : Event) (evs : list Event) (c : Composer) :
  after (run props (ev :: evs) c) = after (run props evs (after (dispatch props ev c))).
Proof. reflexivity. Qed.

Lemma calls_run_cons (props : Props) (ev : Event) (evs : list Event) (c : Composer) :
  calls (run props (ev :: evs) c)
  = (calls (dispatch props ev c) ++ calls (run props evs (after (dispatch props ev c))))%list.
Proof. reflexivity. Qed.

(** [onMount] assigns [audioRef] when the sound is enabled, and only then. *)
Lemma mount_audioRef (props : Props) (el : HTMLInputElement) (w : Window) :
  audioRef (after (mount props el w)) =
    if JS.truthy_boolean (sendMessageSound props) then Some (sendSound props) else None.
Proof.
  unfold mount, onMount. rewrite bind_read.
  unfold bind, call, ret, setAudioRef, after, sendSound.
  destruct (negb (JS.truthy_boolean (disabled props)) && _ && _);
    destruct (JS.truthy_boolean (sendMessageSound props));
    try destruct (JS.truthy_string (sendSoundLocation props));
    reflexivity.
Qed.

(** The signals right after mounting. *)
Lemma mount_signals (props : Props) (el : HTMLInputElement) (w : Window) :
  inputValue (after (mount props el w)) = JS.nullish (defaultValue props) ""%string /\
  warningMessage (after (mount props el w)) = ""%string /\
  isSendButtonDisabled (after (mount props el w)) = false.
Proof.
  destruct (onMount_signals props w (TextInput props el)) as (Hv & Hw & Hd & _).
  repeat split; assumption.
Qed.

(** *** Handlers in sequence *)

(** X1.  Two submits in a row (a double click on the send button) are one
    submit: the second finds the text state empty, or finds what made the
    first fail, and does nothing. *)
Theorem submit_twice (props : Props) (c : Composer) :
  (submit props ;; submit props)%handler c = submit props c.
Proof.
  unfold bind; cbv beta zeta.
  destruct (submit_cases props c) as [Hnone | (_ & _ & _ & Hsent)].
  - rewrite Hnone. cbn [fst snd]. rewrite Hnone. reflexivity.
  - rewrite Hsent. cbn [fst snd].
    rewrite submit_invalid.
    + cbn [fst snd]. now rewrite app_nil_r.
    + rewrite checkIfInputIsValid_spec. reflexivity.
Qed.

(** X2.  An input the limit accepts wipes out whatever an earlier input
    event did: after any input event, accepted or refused, the handler
    returns exactly what it returns without that earlier event. *)
Theorem handleInput_accepted_absorbs (props : Props) (u v : string) (c : Composer) :
  exceedsLimit props v = false ->
  (handleInput props u ;; handleInput props v)%handler c = handleInput props v c.
Proof.
  intros Hv. unfold bind; cbv beta zeta.
  rewrite (handleInput_commit props v c Hv).
  destruct (handleInput_cases props u c) as [[_ ->] | [_ ->]];
    cbn [fst snd]; rewrite (handleInput_commit props v _ Hv); reflexivity.
Qed.

Lemma handleInput_accepted_absorbs_witness :
  let props := {| defaultValue := None; disabled := None; maxChars := Some 5;
                  maxCharsWarningMessage := None; autoFocus := None;
                  sendMessageSound := None; sendSoundLocation := None |} in
  let c := {| inputValue := "hello"; isSendButtonDisabled := false;
              warningMessage := ""; inputRef := None; audioRef := None |} in
  (handleInput props "hello!" ;; handleInput props "hell")%handler c
  = handleInput props "hell" c.
Proof.
  intros props c.
  apply (handleInput_accepted_absorbs props "hello!" "hell" c).
  reflexivity.
Defined.

(** X3.  A key-press, whatever the key, the cursor and the composer, never
    makes the text state longer and removes at most one character of it; it
    leaves the warning and the send-disabled flag alone and calls neither
    [onSubmit] nor the sound. *)
Theorem handleKeyPress_bounds (e : KeyboardEvent) (c : Composer) :
  let r := handleKeyPress e c in
  (String.length (inputValue (after r)) <= String.length (inputValue c)
   <= String.length (inputValue (after r)) + 1)%nat /\
  warningMessage (after r) = warningMessage c /\
  isSendButtonDisabled (after r) = isSendButtonDisabled c /\
  onSubmit_calls (calls r) = [] /\
  plays (calls r) = [].
Proof.
  destruct (handleKeyPress_cases e c) as [-> | (el & p & _ & _ & _ & Hp & ->)]; cbn.
  - repeat split; lia.
  - split; [|repeat split].
    apply (delete_before_cursor_length (inputValue c) p Hp).
Qed.

(** *** Any list of events *)

(** The two flags move together, from any composer where they agree. *)
Lemma run_flags_from (props : Props) (evs : list Event) (c : Composer) :
  (isSendButtonDisabled c = false /\ warningMessage c = ""%string) \/
  (isSendButtonDisabled c = true /\ warningMessage c = limitWarning props) ->
  let c' := after (run props evs c) in
  (isSendButtonDisabled c' = false /\ warningMessage c' = ""%string) \/
  (isSendButtonDisabled c' = true /\ warningMessage c' = limitWarning props).
Proof.
  revert c. induction evs as [|ev evs IH]; intros c Hc; [exact Hc|].
  cbv zeta. rewrite after_run_cons. apply IH.
  destruct (dispatch_effect props ev c) as [_ Heffect].
  destruct Heffect as [(_ & Hd & Hw & _) | [(v & _ & _ & Hd & Hw & _)
                      | [(_ & Hd & Hw & _) | (_ & _ & _ & Hd & Hw & _)]]].
  - rewrite Hd, Hw. exact Hc.
  - left. split; assumption.
  - right. split; assumption.
  - rewrite Hd, Hw. exact Hc.
Qed.

(** X4.  After mounting and any list of events, the send-disabled flag and
    the warning message are in one of two states: the flag is off and the
    warning is empty, or the flag is on and the warning is the configured
    warning text (the host's, or the default one with the limit). *)
Theorem run_flags (props : Props) (el : HTMLInputElement) (w : Window) (evs : list Event) :
  let c := after (run props evs (after (mount props el w))) in
  (isSendButtonDisabled c = false /\ warningMessage c = ""%string) \/
  (isSendButtonDisabled c = true /\ warningMessage c = limitWarning props).
Proof.
  apply run_flags_from. left.
  destruct (mount_signals props el w) as (_ & Hw & Hd). split; assumption.
Qed.

(** X5.  Whatever the props, the composer and the events, the host's
    [onSubmit] is never handed the empty string. *)
Theorem run_onSubmit_nonempty (props : Props) (evs : list Event) (c : Composer) :
  Forall (fun t => t <> ""%string) (onSubmit_calls (calls (run props evs c))).
Proof.
  revert c. induction evs as [|ev evs IH]; intros c; [constructor|].
  rewrite calls_run_cons, onSubmit_calls_app. apply Forall_app. split; [|apply IH].
  destruct (dispatch_effect props ev c) as [_ Heffect].
  destruct Heffect as [(_ & _ & _ & -> & _) | [(v & _ & _ & _ & _ & ->)
                      | [(_ & _ & _ & ->) | (Htext & _ & _ & _ & _ & ->)]]];
    try constructor.
  - exact Htext.
  - destruct (JS.truthy_boolean (sendMessageSound props)); [|constructor].
    destruct (audioRef c); constructor.
Qed.

(** The text state stays within a non-zero limit once it is within it, and
    so does every text sent. *)
Lemma run_within_limit_from (props : Props) (m : Z) (evs : list Event) (c : Composer) :
  maxChars props = Some m ->
  m <> 0 ->
  Z.of_nat (String.length (inputValue c)) <= m ->
  let r := run props evs c in
  Z.of_nat (String.length (inputValue (after r))) <= m /\
  Forall (fun t => Z.of_nat (String.length t) <= m) (onSubmit_calls (calls r)).
Proof.
  intros Hmax Hm. revert c. induction evs as [|ev evs IH]; intros c Hc.
  - split; [exact Hc | constructor].
  - cbv zeta. rewrite after_run_cons, calls_run_cons, onSubmit_calls_app.
    destruct (dispatch_effect props ev c) as [_ Heffect].
    assert (Hstep : Z.of_nat (String.length (inputValue (after (dispatch props ev c)))) <= m /\
                    Forall (fun t => Z.of_nat (String.length t) <= m)
                      (onSubmit_calls (calls (dispatch props ev c)))).
    { destruct Heffect as [(Hlen & _ & _ & -> & _) | [(v & Hv & -> & _ & _ & ->)
                          | [(-> & _ & _ & ->) | (_ & _ & -> & _ & _ & ->)]]].
      - split; [lia | constructor].
      - split; [|constructor].
        unfold exceedsLimit in Hv. rewrite Hmax in Hv. cbn in Hv.
        destruct (Z.eqb_spec m 0); [contradiction|]. cbn in Hv.
        destruct (Z.gtb_spec (Z.of_nat (String.length v)) m); [discriminate | lia].
      - split; [exact Hc | constructor].
      - split; [simpl; lia|].
        cbn [onSubmit_calls]. constructor; [exact Hc|].
        destruct (JS.truthy_boolean (sendMessageSound props)); [|constructor].
        destruct (audioRef c); constructor. }
    destruct Hstep as [Hstate Hsent].
    destruct (IH _ Hstate) as [Hstate' Hsent'].
    split; [exact Hstate' | apply Forall_app; split; assumption].
Qed.

(** X6.  With a non-zero [maxChars] and a default text within it, the text
    state is within the limit after mounting and any list of events, and
    every text handed to [onSubmit] is within the limit. *)
Theorem run_within_limit (props : Props) (el : HTMLInputElement) (w : Window)
    (m : Z) (evs : list Event) :
  maxChars props = Some m ->
  m <> 0 ->
  Z.of_nat (String.length (JS.nullish (defaultValue props) ""%string)) <= m ->
  let r := run props evs (after (mount props el w)) in
  Z.of_nat (String.length (inputValue (after r))) <= m /\
  Forall (fun t => Z.of_nat (String.length t) <= m) (onSubmit_calls (calls r)).
Proof.
  intros Hmax Hm Hdefault.
  apply run_within_limit_from; try assumption.
  destruct (mount_signals props el w) as (-> & _). exact Hdefault.
Qed.

Lemma run_within_limit_witness :
  let props := {| defaultValue := Some "hi"%string; disabled := None; maxChars := Some 5;
                  maxCharsWarningMessage := None; autoFocus := None;
                  sendMessageSound := None; sendSoundLocation := None |} in
  let el := {| selectionStart := Some 2; selectionEnd := Some 2; validity := true |} in
  let w := {| isMobile := false; innerWidth := 1024 |} in
  let evs := [Input "hi all"; SendClick; Input "hello"; SendClick] in
  let r := run props evs (after (mount props el w)) in
  Z.of_nat (String.length (inputValue (after r))) <= 5 /\
  Forall (fun t => Z.of_nat (String.length t) <= 5) (onSubmit_calls (calls r)).
Proof.
  intros props el w evs.
  apply (run_within_limit props el w 5 evs).
  - reflexivity.
  - lia.
  - simpl. lia.
Defined.

(** The sounds played follow the texts sent, one for one, when the sound is
    enabled and loaded. *)
Lemma run_sound_from (props : Props) (evs : list Event) (c : Composer) :
  let r := run props evs c in
  plays (calls r) =
    if JS.truthy_boolean (sendMessageSound props)
    then match audioRef c with
         | Some a => repeat a (List.length (onSubmit_calls (calls r)))
         | None => []
         end
    else [].
Proof.
  revert c. induction evs as [|ev evs IH]; intros c.
  - cbn. destruct (JS.truthy_boolean (sendMessageSound props)); [|reflexivity].
    destruct (audioRef c); reflexivity.
  - cbv zeta. rewrite calls_run_cons, plays_app, onSubmit_calls_app, length_app.
    cbv zeta in IH. rewrite IH.
    destruct (dispatch_effect props ev c) as [-> Heffect].
    destruct Heffect as [(_ & _ & _ & -> & ->) | [(v & _ & _ & _ & _ & ->)
                        | [(_ & _ & _ & ->) | (_ & _ & _ & _ & _ & ->)]]];
      try reflexivity.
    destruct (JS.truthy_boolean (sendMessageSound props)); [|reflexivity].
    destruct (audioRef c); reflexivity.
Qed.

(** X7.  After mounting, over any list of events: when [sendMessageSound]
    is on, the sound played is always the one of [sendSoundLocation] (the
    built-in one when that is unset or empty) and it is played exactly as
    many times as [onSubmit] is called; when [sendMessageSound] is off or
    unset, no sound is ever played. *)
Theorem run_sound (props : Props) (el : HTMLInputElement) (w : Window) (evs : list Event) :
  let r := run props evs (after (mount props el w)) in
  plays (calls r) =
    if JS.truthy_boolean (sendMessageSound props)
    then repeat (sendSound props) (List.length (onSubmit_calls (calls r)))
    else [].
Proof.
  cbv zeta. rewrite run_sound_from, mount_audioRef.
  destruct (JS.truthy_boolean (sendMessageSound props)); reflexivity.
Qed.

(** *** What is on the page *)

(** X8.  After mounting and any list of events, when the warning region is
    on the page it shows the configured warning text, and then the send
    button is disabled and neither the image-upload button nor the
    record-audio button can be used. *)
Theorem render_warning_blocks (props : Props) (m : MarkupProps)
    (el : HTMLInputElement) (w : Window) (evs : list Event) :
  let v := render props m (after (run props evs (after (mount props el w)))) in
  match warningRegion v with
  | Some text =>
      text = limitWarning props /\
      sendButton v = true /\
      unusable (imageUploadButton v) = true /\
      unusable (recordAudioButton v) = true
  | None => True
  end.
Proof.
  cbv zeta.
  assert (Hflags := run_flags_from props evs (after (mount props el w))).
  cbv zeta in Hflags.
  destruct (mount_signals props el w) as (_ & Hw0 & Hd0).
  specialize (Hflags (or_introl (conj Hd0 Hw0))). clear Hw0 Hd0.
  set (c := after (run props evs (after (mount props el w)))) in *. clearbody c.
  unfold render.
  cbn [warningRegion sendButton imageUploadButton recordAudioButton].
  destruct Hflags as [[Hd Hw] | [Hd Hw]].
  - rewrite Hw. exact I.
  - destruct (warningMessage c =? "")%string eqn:Hshown; cbn [negb]; [exact I|].
    rewrite Hd, orb_true_r.
    split; [exact Hw | split; [reflexivity|]].
    split.
    + destruct (uploadsFlag isImageUploadAllowed m); reflexivity.
    + destruct (uploadsFlag isSpeechToTextEnabled m); reflexivity.
Qed.

(** X9.  Right after an input event, whatever came before it, the page is
    a function of that input: the send button and the two optional buttons,
    where rendered, are disabled exactly when the widget is disabled or the
    input is over the limit; the warning region shows the configured warning
    exactly when the input is over the limit and that warning is not empty;
    the text shown is the input when it is within the limit and the earlier
    text otherwise. *)
Theorem render_after_input (props : Props) (m : MarkupProps) (newValue : string) (c : Composer) :
  let v := render props m (after (handleInput props newValue c)) in
  let blocked := exceedsLimit props newValue in
  let isDisabled := JS.truthy_boolean (disabled props) || blocked in
  sendButton v = isDisabled /\
  imageUploadButton v
    = (if uploadsFlag isImageUploadAllowed m then Some isDisabled else None) /\
  recordAudioButton v
    = (if uploadsFlag isSpeechToTextEnabled m then Some isDisabled else None) /\
  warningRegion v
    = (if blocked && negb (limitWarning props =? "")%string
       then Some (limitWarning props)
       else None) /\
  field_value v = (if blocked then inputValue c else newValue).
Proof.
  cbv zeta.
  destruct (handleInput_cases props newValue c) as [[-> ->] | [-> ->]];
    unfold render; cbn; repeat split.
Qed.

(** *** Enter and the send button *)

(** X10.  The Enter key does not look at the send-disabled flag.  When the
    host's warning text is the empty string, an input over the limit
    disables the send button and shows no warning; Enter (outside a
    composition, the field reporting itself valid) then still hands the
    earlier, non-empty text to [onSubmit], once. *)
Theorem enter_submits_while_send_disabled (props : Props) (m : Z) (newValue : string)
    (e : KeyboardEvent) (c : Composer) :
  maxChars props = Some m ->
  m <> 0 ->
  Z.of_nat (String.length newValue) > m ->
  maxCharsWarningMessage props = Some ""%string ->
  inputValue c <> ""%string ->
  field_reports_valid c = true ->
  key e = "Enter"%string ->
  isComposing e = false ->
  keyCode e <> 229 ->
  let c' := after (handleInput props newValue c) in
  isSendButtonDisabled c' = true /\
  warningMessage c' = ""%string /\
  onSubmit_calls (calls (submitWhenEnter props e c')) = [inputValue c].
Proof.
  intros Hmax Hm Hlen Hmsg Htext Hvalid Hkey Hcomp Hcode.
  assert (Hguard : exceedsLimit props newValue = true).
  { unfold exceedsLimit. rewrite Hmax. cbn.
    destruct (Z.eqb_spec m 0); [contradiction|].
    destruct (Z.gtb_spec (Z.of_nat (String.length newValue)) m); [reflexivity | lia]. }
  cbv zeta. rewrite (handleInput_block props newValue c Hguard). cbn [after fst snd].
  rewrite Hmsg. cbn [JS.nullish isSendButtonDisabled warningMessage].
  split; [reflexivity | split; [reflexivity|]].
  rewrite submitWhenEnter_plain; try assumption; [|reflexivity].
  set (c' := {| inputValue := inputValue c; isSendButtonDisabled := true;
                warningMessage := ""; inputRef := inputRef c; audioRef := audioRef c |}).
  apply (submit_valid_onSubmit props c').
  rewrite checkIfInputIsValid_spec. cbn.
  apply String.eqb_neq in Htext. rewrite Htext. cbn.
  exact Hvalid.
Qed.

Lemma enter_submits_while_send_disabled_witness :
  let props := {| defaultValue := None; disabled := None; maxChars := Some 5;
                  maxCharsWarningMessage := Some ""%string; autoFocus := None;
                  sendMessageSound := None; sendSoundLocation := None |} in
  let e := {| key := "Enter"; isComposing := false; keyCode := 13 |} in
  let c := {| inputValue := "hello"; isSendButtonDisabled := false;
              warningMessage := "";
              inputRef := Some {| selectionStart := Some 6; selectionEnd := Some 6;
                                  validity := true |};
              audioRef := None |} in
  let c' := after (handleInput props "hello!" c) in
  isSendButtonDisabled c' = true /\
  warningMessage c' = ""%string /\
  onSubmit_calls (calls (submitWhenEnter props e c')) = ["hello"%string].
Proof.
  intros props e c.
  apply (enter_submits_while_send_disabled props 5 "hello!" e c).
  - reflexivity.
  - lia.
  - simpl. lia.
  - reflexivity.
  - simpl. discriminate.
  - reflexivity.
  - reflexivity.
  - reflexivity.
  - simpl. lia.
Defined.

(** *** Choosing files *)

(** One choice in a picker left empty by the handler. *)
Lemma pickFile_fresh (f : string) (c : Composer) :
  f <> ""%string ->
  pickFile f {| value := "" |} c
  = ({| value := "" |}, c, [hostHandleFileChange {| target := Some {| value := f |} |}]).
Proof.
  intros Hf. unfold pickFile, chooseFile. cbn [value].
  apply String.eqb_neq in Hf. rewrite Hf. reflexivity.
Qed.

(** X11.  Every choice of files in the picker reaches the host, in order
    and with the chosen name still on the event, also when the same file is
    chosen several times in a row; the picker is left empty and the composer
    untouched. *)
Theorem pickFiles_all_forwarded (chosen : list string) (c : Composer) :
  Forall (fun f => f <> ""%string) chosen ->
  let r := pickFiles chosen {| value := "" |} c in
  calls r = map (fun f => hostHandleFileChange {| target := Some {| value := f |} |}) chosen /\
  result r = {| value := "" |} /\
  after r = c.
Proof.
  intros Hchosen. cbv zeta.
  assert (Hall : pickFiles chosen {| value := "" |} c
                 = ({| value := "" |}, c,
                    map (fun f => hostHandleFileChange {| target := Some {| value := f |} |})
                      chosen)).
  { induction Hchosen as [|f rest Hf _ IH]; [reflexivity|].
    cbn [pickFiles]. unfold bind; cbv beta zeta.
    rewrite (pickFile_fresh f c Hf). cbn [fst snd]. rewrite IH. reflexivity. }
  rewrite Hall. repeat split.
Qed.

Lemma pickFiles_all_forwarded_witness :
  let chosen := ["C:\fakepath\cat.png"; "C:\fakepath\cat.png"]%string in
  let c := {| inputValue := ""; isSendButtonDisabled := false;
              warningMessage := ""; inputRef := None; audioRef := None |} in
  let r := pickFiles chosen {| value := "" |} c in
  calls r = map (fun f => hostHandleFileChange {| target := Some {| value := f |} |}) chosen /\
  result r = {| value := "" |} /\
  after r = c.
Proof.
  intros chosen c.
  apply (pickFiles_all_forwarded chosen c).
  repeat constructor; discriminate.
Defined.

(** *** Between two inputs *)

(** An event other than an input never grows the text, and sends at most
    the text it found, which it then clears. *)
Lemma dispatch_without_input (props : Props) (ev : Event) (c : Composer) :
  (forall v, ev <> Input v) ->
  let r := dispatch props ev c in
  (String.length (inputValue (after r)) <= String.length (inputValue c))%nat /\
  (onSubmit_calls (calls r) = [] \/
   (inputValue c <> ""%string /\
    inputValue (after r) = ""%string /\
    onSubmit_calls (calls r) = [inputValue c])).
Proof.
  intros Hev.
  assert (Hsubmit :
            forall r, r = submit props c ->
              (String.length (inputValue (after r)) <= String.length (inputValue c))%nat /\
              (onSubmit_calls (calls r) = [] \/
               (inputValue c <> ""%string /\
                inputValue (after r) = ""%string /\
                onSubmit_calls (calls r) = [inputValue c]))).
  { intros r ->.
    destruct (submit_cases props c) as [-> | (Htext & _ & _ & ->)]; cbn.
    - split; [lia | left; reflexivity].
    - split; [lia | right]. repeat split; try assumption.
      destruct (JS.truthy_boolean (sendMessageSound props)); [|reflexivity].
      destruct (audioRef c); reflexivity. }
  destruct ev as [v|e|e| |event|el]; cbn [dispatch]; cbv zeta.
  - now contradiction (Hev v).
  - destruct (submitWhenEnter_cases props e c) as [-> | ->].
    + cbn. split; [lia | left; reflexivity].
    + now apply Hsubmit.
  - destruct (handleKeyPress_cases e c) as [-> | (el & p & _ & _ & _ & Hp & ->)]; cbn.
    + split; [lia | left; reflexivity].
    + split; [|left; reflexivity].
      apply (delete_before_cursor_length (inputValue c) p Hp).
  - now apply Hsubmit.
  - assert (Hfile : (_ <- handleFileChange event ;; ret tt)%handler c
                    = (tt, c, [hostHandleFileChange event])).
    { unfold handleFileChange, bind, call, ret. destruct (target event); reflexivity. }
    rewrite Hfile. cbn. split; [lia | left; reflexivity].
  - unfold fieldUpdate, after, calls. destruct (inputRef c); cbn;
      (split; [lia | left; reflexivity]).
Qed.

(** With nothing typed and an empty text, nothing is sent. *)
Lemma run_without_input_empty (props : Props) (evs : list Event) (c : Composer) :
  Forall (fun ev => forall v, ev <> Input v) evs ->
  inputValue c = ""%string ->
  onSubmit_calls (calls (run props evs c)) = [].
Proof.
  intros Hevs. revert c. induction Hevs as [|ev evs Hev _ IH]; intros c Hempty;
    [reflexivity|].
  rewrite calls_run_cons, onSubmit_calls_app.
  destruct (dispatch_without_input props ev c Hev) as [Hlen [Hnone | (Htext & _)]].
  - rewrite Hnone, IH; [reflexivity|].
    rewrite Hempty in Hlen. simpl in Hlen.
    destruct (inputValue (after (dispatch props ev c))); [reflexivity | simpl in Hlen; lia].
  - contradiction.
Qed.

(** X12.  Without a new input event, the host receives at most one message:
    from any composer, a list of events with no input among them (clicks on
    send, Enter and other keys, Backspace, cursor moves, file choices) calls
    [onSubmit] at most once. *)
Theorem run_without_input_sends_once (props : Props) (evs : list Event) (c : Composer) :
  Forall (fun ev => forall v, ev <> Input v) evs ->
  (List.length (onSubmit_calls (calls (run props evs c))) <= 1)%nat.
Proof.
  intros Hevs. revert c. induction Hevs as [|ev evs Hev Hrest IH]; intros c;
    [simpl; lia|].
  rewrite calls_run_cons, onSubmit_calls_app, length_app.
  destruct (dispatch_without_input props ev c Hev) as [_ [Hnone | (_ & Hcleared & Hsent)]].
  - rewrite Hnone. simpl. apply IH.
  - rewrite Hsent, (run_without_input_empty props evs _ Hrest Hcleared). simpl. lia.
Qed.

Lemma run_without_input_sends_once_witness :
  let props := {| defaultValue := Some "hello"%string; disabled := None; maxChars := None;
                  maxCharsWarningMessage := None; autoFocus := None;
                  sendMessageSound := None; sendSoundLocation := None |} in
  let el := {| selectionStart := Some 5; selectionEnd := Some 5; validity := true |} in
  let enter := {| key := "Enter"; isComposing := false; keyCode := 13 |} in
  let evs := [SendClick; KeyDown enter; SendClick] in
  (List.length (onSubmit_calls (calls (run props evs (TextInput props el)))) <= 1)%nat.
Proof.
  intros props el enter evs.
  apply (run_without_input_sends_once props evs (TextInput props el)).
  repeat constructor; discriminate.
Defined.
